(** * Resolver mapping templates of the AppSync chat stack

    The stack in [lib/appsync-cdk-chat-app-stack.ts] declares four resolvers
    ([listMessageForRoom], [createMessage], [listRooms], [createRoom]).  Each
    one carries a request mapping template and a response mapping template,
    written in the Velocity template language and evaluated by AppSync for
    every request.  This file embeds the eight templates as functions, the
    [$util] helpers they call, and proves what the templates render. *)

From Stdlib Require Import ZArith Ascii.
From stdpp Require Import gmap strings list fin_maps.

#[local] Set Warnings "-register-all".
#[local] Open Scope Z_scope.

(** ** Values of the template language *)

(** What a template reference can hold: the GraphQL arguments, the maps the
    templates build with [#set], the store's result.  Numbers are the integral
    ones; no template of the stack computes with a number. *)
Inductive value :=
| VNull
| VBool (b : bool)
| VNum (n : Z)
| VStr (s : string)
| VList (l : list value)
| VMap (m : gmap string value).

(** The JSON a template renders.  [JStr s] is the string [s] written with
    JSON's escapes, as [$util.toJson] and [$util.dynamodb] write it.  [JRaw
    body] is a string literal whose two quotes are template text and whose
    body is the text a reference was replaced with, with no escaping: the
    reader of the document decodes [body] as it decodes any string literal.
    A quote inside [body] ends the literal there, and the rest of [body] is
    read as JSON text after it: members the template did not write, or no
    JSON at all.  The tree is the rendered text when the pasted body has no
    quote, no backslash and no control character. *)
Inductive json :=
| JNull
| JBool (b : bool)
| JNum (n : Z)
| JStr (s : string)
| JRaw (body : string)
| JArr (l : list json)
| JObj (m : gmap string json).

(** [j.k] for an object [j]. *)
Definition member (k : string) (j : json) : option json :=
  match j with
  | JObj m => m !! k
  | _ => None
  end.

(** [$m.k] and [$m.get(k)]: a missing key reads as null. *)
Definition get (m : gmap string value) (k : string) : value :=
  default VNull (m !! k).

(** [#if( $x )] for a reference: false when [$x] is null or the Boolean
    false, true for every other value. *)
Definition truthy (v : value) : bool :=
  match v with
  | VNull => false
  | VBool b => b
  | _ => true
  end.

(** ** The [$util] helpers *)

Definition isNull (v : value) : bool :=
  match v with
  | VNull => true
  | _ => false
  end.

Definition defaultIfNull (v d : value) : value :=
  if isNull v then d else v.

(** [$util.toJson]. *)
Fixpoint toJson (v : value) : json :=
  match v with
  | VNull => JNull
  | VBool b => JBool b
  | VNum n => JNum n
  | VStr s => JStr s
  | VList l => JArr (toJson <$> l)
  | VMap m => JObj (toJson <$> m)
  end.

(** [$util.dynamodb.toDynamoDBJson]: the value in the store's typed form. *)
Fixpoint toDynamoDBJson (v : value) : json :=
  match v with
  | VNull => JObj {[ "NULL" := JNull ]}
  | VBool b => JObj {[ "BOOL" := JBool b ]}
  | VNum n => JObj {[ "N" := JNum n ]}
  | VStr s => JObj {[ "S" := JStr s ]}
  | VList l => JObj {[ "L" := JArr (toDynamoDBJson <$> l) ]}
  | VMap m => JObj {[ "M" := JObj (toDynamoDBJson <$> m) ]}
  end.

(** [$util.dynamodb.toMapValuesJson]: every value of the map in typed form,
    the map itself left as a plain object. *)
Definition toMapValuesJson (m : gmap string value) : json :=
  JObj (toDynamoDBJson <$> m).

(** The helpers whose result differs from call to call.  One evaluation of a
    template calls each at most once, so one record stands for the results of
    one evaluation. *)
Record Util := {
  autoId : string;
  nowISO8601 : string
}.

(** ** What a template sees and what it renders *)

Record Identity := { username : string }.

(** [$context] (also [$ctx]) of a request template; [$context.arguments] is
    also [$context.args]. *)
Record context (A : Type) := {
  arguments : A;
  identity : Identity
}.
Arguments arguments {A} _.
Arguments identity {A} _.

(** Text a template renders outside its JSON document.  A reference to a
    non-null value renders as that value ([Shown]); template text and a
    reference to null render as they are written ([Literal]).  White space is
    left out: the reader of the document skips it. *)
Inductive piece :=
| Literal (s : string)
| Shown (v : value).

(** The outcome of evaluating a request template on a context of arguments
    [A]: the arguments as the template leaves them (a template may [put] into
    [$context.args.input]), the text outside the document and the document. *)
Record evaluation (A : Type) := {
  arguments_after : A;
  stray : list piece;
  document : json
}.
Arguments arguments_after {A} _.
Arguments stray {A} _.
Arguments document {A} _.

(** AppSync reads the rendered text as one JSON document: that document is
    the store operation.  Text outside the document leaves AppSync with no
    document to read and the store is not called.  The test is on the text
    outside the document; of a document with a pasted body ([JRaw]) this is
    the store operation when that body has no quote, no backslash and no
    control character. *)
Definition store_operation {A : Type} (e : evaluation A) : option json :=
  match stray e with
  | [] => Some (document e)
  | _ :: _ => None
  end.

(** [$ctx.error] and [$ctx.result] of a response template. *)
Record store_error := {
  message : string;
  type : string
}.

Record outcome := {
  error : option store_error;
  result : value
}.

(** What a response template does: [$util.error(m, t)] raises, anything else
    is the JSON the field resolves to. *)
Inductive response :=
| Raised (m t : string)
| Returned (j : json).

(** ** Reading a string literal of the rendered document *)

Definition dquote : ascii := "034"%char.
Definition backslash : ascii := "092"%char.

Definition hex_digit (c : ascii) : option N :=
  let n := N_of_ascii c in
  if ((48 <=? n) && (n <=? 57))%N then Some (n - 48)%N
  else if ((65 <=? n) && (n <=? 70))%N then Some (n - 55)%N
  else if ((97 <=? n) && (n <=? 102))%N then Some (n - 87)%N
  else None.

Definition hex4 (a b c d : ascii) : option N :=
  x ← hex_digit a; y ← hex_digit b; z ← hex_digit c; w ← hex_digit d;
  Some (((x * 16 + y) * 16 + z) * 16 + w)%N.

(** The UTF-8 bytes of a code point. *)
Definition utf8 (n : N) : string :=
  let byte k := ascii_of_N k in
  (if n <? 128 then String (byte n) EmptyString
   else if n <? 2048 then
     String (byte (192 + n / 64)) (String (byte (128 + n mod 64)) EmptyString)
   else if n <? 65536 then
     String (byte (224 + n / 4096))
       (String (byte (128 + (n / 64) mod 64)) (String (byte (128 + n mod 64)) EmptyString))
   else
     String (byte (240 + n / 262144))
       (String (byte (128 + (n / 4096) mod 64))
          (String (byte (128 + (n / 64) mod 64)) (String (byte (128 + n mod 64)) EmptyString))))%N.

(** The character a two-character escape stands for. *)
Definition escape (e : ascii) : option ascii :=
  if decide (e = dquote) then Some dquote
  else if decide (e = backslash) then Some backslash
  else if decide (e = "/"%char) then Some "/"%char
  else if decide (e = "b"%char) then Some "008"%char
  else if decide (e = "f"%char) then Some "012"%char
  else if decide (e = "n"%char) then Some "010"%char
  else if decide (e = "r"%char) then Some "013"%char
  else if decide (e = "t"%char) then Some "009"%char
  else None.

(** The string a JSON reader takes from a literal with body [body], the text
    between the two quotes the template wrote.  [None]: the body is not the
    body of one string literal (a quote ends the literal early, a backslash
    starts no escape, a control character is bare, a surrogate is alone), so
    the reader does not find one string there. *)
Fixpoint string_literal (body : string) : option string :=
  match body with
  | EmptyString => Some EmptyString
  | String c rest =>
    if decide (c = dquote) then None
    else if decide (c = backslash) then
      match rest with
      | EmptyString => None
      | String e rest1 =>
        if decide (e = "u"%char) then
          match rest1 with
          | String h1 (String h2 (String h3 (String h4 rest2))) =>
            n ← hex4 h1 h2 h3 h4;
            if ((55296 <=? n) && (n <=? 56319))%N then
              match rest2 with
              | String b (String u (String l1 (String l2 (String l3 (String l4 rest3))))) =>
                if decide (b = backslash ∧ u = "u"%char) then
                  lo ← hex4 l1 l2 l3 l4;
                  if ((56320 <=? lo) && (lo <=? 57343))%N then
                    String.app (utf8 (65536 + (n - 55296) * 1024 + (lo - 56320))%N)
                      <$> string_literal rest3
                  else None
                else None
              | _ => None
              end
            else if ((56320 <=? n) && (n <=? 57343))%N then None
            else String.app (utf8 n) <$> string_literal rest2
          | _ => None
          end
        else d ← escape e; String d <$> string_literal rest1
      end
    else if (N_of_ascii c <? 32)%N then None
    else String c <$> string_literal rest
  end.

(** The string a member of the document gives its reader. *)
Definition string_value (j : json) : option string :=
  match j with
  | JStr s => Some s
  | JRaw body => string_literal body
  | _ => None
  end.

(** No quote, no backslash, no control character. *)
Fixpoint plain (s : string) : bool :=
  match s with
  | EmptyString => true
  | String c rest =>
    bool_decide (c ≠ dquote) && bool_decide (c ≠ backslash)
      && negb (N_of_ascii c <? 32)%N && plain rest
  end.

(** ** Arguments as template values *)

(** An optional string argument: absent is null. *)
Definition optional (o : option string) : value := from_option VStr VNull o.

(** [$x == "s"] for a reference that holds a string or null. *)
Definition equals (v : value) (s : string) : bool :=
  match v with
  | VStr x => bool_decide (x = s)
  | _ => false
  end.

(** ** The resolvers *)

(** The schema file [graphql/schema.graphql] is not part of the sources read
    here; the argument records follow the fields the templates read. *)

Module ListMessageForRoom.

Record args := {
  roomId : string;
  sortDirection : option string;
  nextToken : option string
}.

(** The request template of [Query.listMessageForRoom]. *)
Definition requestMappingTemplate (u : Util) (ctx : context args)
  : evaluation args :=
  let a := arguments ctx in
  let query : gmap string json :=
    {[ "version" := JStr "2017-02-28";
       "operation" := JStr "Query";
       "query" := JObj
         {[ "expression" := JStr "roomId = :roomId";
            "expressionValue" := JObj
              {[ ":roomId" := toDynamoDBJson (VStr (roomId a)) ]} ]} ]} in
  let query :=
    if negb (isNull (optional (sortDirection a)))
       && equals (optional (sortDirection a)) "DESC"
    then <["scanIndexForward" := JBool false]> query
    else <["scanIndexForward" := JBool true]> query in
  let query :=
    if truthy (optional (nextToken a))
    then <["nextToken" := JRaw (default EmptyString (nextToken a))]> query
    else query in
  {| arguments_after := a; stray := []; document := JObj query |}.

(** The response template of [Query.listMessageForRoom]. *)
Definition responseMappingTemplate (o : outcome) : response :=
  match error o with
  | Some e => Raised (message e) (type e)
  | None => Returned (toJson (result o))
  end.

End ListMessageForRoom.

(** [MappingTemplate.dynamoDbResultItem()] of the CDK's AppSync library,
    which is not part of the repository: the fixed template
    [$util.toJson($ctx.result)], with no test of [$ctx.error]. *)
Definition dynamoDbResultItem (o : outcome) : response :=
  Returned (toJson (result o)).

Module CreateMessage.

Record args := { input : gmap string value }.

(** The text of the reference on the [createdAt] line, as Velocity renders
    it when the call returns null. *)
Definition put_createdAt_text : string :=
  "$context.args.input.put(" +:+ String dquote "createdAt" +:+ String dquote
    ", $util.defaultIfNull($ctx.args.input.createdAt, $createdAt))".

(** The request template of [Mutation.createMessage].  The [id] and [owner]
    lines are [$util.qr(...)]: the [put] runs and nothing is rendered.  The
    [createdAt] line starts with [util.qr(], without the [$]: these eight
    characters and the closing parenthesis are template text, and the
    [put] between them is a rendered reference, so it runs and what it
    returns (the value the key had, null when it had none) is rendered. *)
Definition requestMappingTemplate (u : Util) (ctx : context args)
  : evaluation args :=
  let input0 := input (arguments ctx) in
  let input1 :=
    <["id" := defaultIfNull (get input0 "id") (VStr (autoId u))]> input0 in
  let createdAt := VStr (nowISO8601 u) in
  let previous := get input1 "createdAt" in
  let input2 :=
    <["createdAt" := defaultIfNull (get input1 "createdAt") createdAt]> input1 in
  let input3 := <["owner" := VStr (username (identity ctx))]> input2 in
  let condition : value :=
    VMap {[ "expression" := VStr "attribute_not_exists(#id)";
            "expressionNames" := VMap {[ "#id" := VStr "id" ]} ]} in
  {| arguments_after := {| input := input3 |};
     stray :=
       [ Literal "util.qr(";
         (if isNull previous then Literal put_createdAt_text else Shown previous);
         Literal ")" ];
     document := JObj
       {[ "version" := JStr "2018-05-29";
          "operation" := JStr "PutItem";
          "key" := JObj {[ "id" := toDynamoDBJson (get input3 "id") ]};
          "attributeValues" := toMapValuesJson input3;
          "condition" := toJson condition ]} |}.

(** The response template of [Mutation.createMessage]. *)
Definition responseMappingTemplate : outcome -> response :=
  dynamoDbResultItem.

End CreateMessage.

Module ListRooms.

Record args := {
  limit : option Z;
  nextToken : option string
}.

(** The request template of [Query.listRooms]. *)
Definition requestMappingTemplate (u : Util) (ctx : context args)
  : evaluation args :=
  let a := arguments ctx in
  let limit := defaultIfNull (from_option VNum VNull (limit a)) (VNum 1000) in
  let ListRequest : gmap string value :=
    {[ "version" := VStr "2018-05-29"; "limit" := limit ]} in
  let ListRequest :=
    if truthy (optional (nextToken a))
    then <["nextToken" := optional (nextToken a)]> ListRequest
    else ListRequest in
  let ListRequest := <["operation" := VStr "Scan"]> ListRequest in
  {| arguments_after := a; stray := []; document := toJson (VMap ListRequest) |}.

(** The response template of [Query.listRooms]. *)
Definition responseMappingTemplate (o : outcome) : response :=
  match error o with
  | Some e => Raised (message e) (type e)
  | None => Returned (toJson (result o))
  end.

End ListRooms.

Module CreateRoom.

Record args := { input : gmap string value }.

(** The request template of [Mutation.createRoom].  No [#set] of this
    template gives [$condition] a value: the reference is null. *)
Definition requestMappingTemplate (u : Util) (ctx : context args)
  : evaluation args :=
  let input0 := input (arguments ctx) in
  let input1 :=
    <["id" := defaultIfNull (get input0 "id") (VStr (autoId u))]> input0 in
  let condition : value := VNull in
  {| arguments_after := {| input := input1 |};
     stray := [];
     document := JObj
       {[ "version" := JStr "2018-05-29";
          "operation" := JStr "PutItem";
          "key" := JObj {[ "id" := toDynamoDBJson (get input1 "id") ]};
          "attributeValues" := toMapValuesJson input1;
          "condition" := toJson condition ]} |}.

(** The response template of [Mutation.createRoom]. *)
Definition responseMappingTemplate : outcome -> response :=
  dynamoDbResultItem.

End CreateRoom.

(** The four operations and their templates. *)
Inductive operation :=
| listMessageForRoom
| createMessage
| listRooms
| createRoom.

Definition responseMappingTemplate_of (op : operation) : outcome -> response :=
  match op with
  | listMessageForRoom => ListMessageForRoom.responseMappingTemplate
  | createMessage => CreateMessage.responseMappingTemplate
  | listRooms => ListRooms.responseMappingTemplate
  | createRoom => CreateRoom.responseMappingTemplate
  end.

(** ** Requests written out *)

Definition listMessageForRoom_request (u : Util) (who : Identity)
    (r : string) (sd tok : option string) : evaluation ListMessageForRoom.args :=
  ListMessageForRoom.requestMappingTemplate u
    {| arguments :=
         {| ListMessageForRoom.roomId := r;
            ListMessageForRoom.sortDirection := sd;
            ListMessageForRoom.nextToken := tok |};
       identity := who |}.

Definition listRooms_request (u : Util) (who : Identity)
    (l : option Z) (tok : option string) : evaluation ListRooms.args :=
  ListRooms.requestMappingTemplate u
    {| arguments := {| ListRooms.limit := l; ListRooms.nextToken := tok |};
       identity := who |}.

Definition createMessage_request (u : Util) (who : Identity)
    (m : gmap string value) : evaluation CreateMessage.args :=
  CreateMessage.requestMappingTemplate u
    {| arguments := {| CreateMessage.input := m |}; identity := who |}.

Definition createRoom_request (u : Util) (who : Identity)
    (m : gmap string value) : evaluation CreateRoom.args :=
  CreateRoom.requestMappingTemplate u
    {| arguments := {| CreateRoom.input := m |}; identity := who |}.

(** The error passthrough rule in the words of the specification: the
    store's error gives the response its message and type, and with no error
    the response is the store's result as JSON. *)
Definition error_passthrough (o : outcome) : response :=
  match error o with
  | Some e => Raised (message e) (type e)
  | None => Returned (toJson (result o))
  end.

(** The precondition of [createMessage], as the store reads it. *)
Definition attribute_not_exists_id : json :=
  JObj {[ "expression" := JStr "attribute_not_exists(#id)";
          "expressionNames" := JObj {[ "#id" := JStr "id" ]} ]}.

(** The names of the members of an object. *)
Definition members (j : json) : gset string :=
  match j with
  | JObj m => dom m
  | _ => ∅
  end.

(** A clock, a generated identifier and a caller to evaluate with. *)
Definition util_0 : Util :=
  {| autoId := "b0c1"; nowISO8601 := "2021-06-01T12:00:00.000Z" |}.

Definition alice : Identity := {| username := "alice" |}.

(** A cursor that closes its own literal and goes on with two members:
    [x","scanIndexForward":true,"y":"z]. *)
Definition forged_cursor : string :=
  "x" +:+ String dquote "," +:+ String dquote "scanIndexForward"
    +:+ String dquote ":true," +:+ String dquote "y" +:+ String dquote ":"
    +:+ String dquote "z".

(** A store failure that is no failed precondition. *)
Definition internal_failure : store_error :=
  {| message := "Internal failure"; type := "DynamoDB:AmazonDynamoDBException" |}.

(** ** The tables of the stack *)

Module Dynamo.

(** [AttributeType] of the CDK's DynamoDB library; each type is the tag the
    store writes in front of a value of that type. *)
Inductive AttributeType :=
| BINARY
| NUMBER
| STRING.

Definition tag (t : AttributeType) : string :=
  match t with
  | BINARY => "B"
  | NUMBER => "N"
  | STRING => "S"
  end.

Record Attribute := {
  name : string;
  type : AttributeType
}.

Record KeySchema := {
  partitionKey : Attribute;
  sortKey : option Attribute
}.

Record Table := {
  schema : KeySchema;
  globalSecondaryIndexes : list (string * KeySchema)
}.

(** [new Table(scope, id, { partitionKey })]. *)
Definition newTable (pk : Attribute) : Table :=
  {| schema := {| partitionKey := pk; sortKey := None |};
     globalSecondaryIndexes := [] |}.

Definition addGlobalSecondaryIndex
    (t : Table) (indexName : string) (ks : KeySchema) : Table :=
  {| schema := schema t;
     globalSecondaryIndexes := globalSecondaryIndexes t ++ [(indexName, ks)] |}.

(** The names of the attributes of a key. *)
Definition key_names (ks : KeySchema) : gset string :=
  {[ name (partitionKey ks) ]} ∪ from_option (λ a, {[ name a ]}) ∅ (sortKey ks).

End Dynamo.

(** [ChatMessageTable], with the index the stack adds to it. *)
Definition messageTable : Dynamo.Table :=
  Dynamo.addGlobalSecondaryIndex
    (Dynamo.newTable {| Dynamo.name := "id"; Dynamo.type := Dynamo.STRING |})
    "message-by-room-id"
    {| Dynamo.partitionKey :=
         {| Dynamo.name := "roomId"; Dynamo.type := Dynamo.STRING |};
       Dynamo.sortKey :=
         Some {| Dynamo.name := "createdAt"; Dynamo.type := Dynamo.STRING |} |}.

(** [ChatRoomTable]. *)
Definition roomTable : Dynamo.Table :=
  Dynamo.newTable {| Dynamo.name := "id"; Dynamo.type := Dynamo.STRING |}.

(** The table behind the data source of each resolver: [messageTableDs] for
    the two message resolvers, [roomTableDs] for the two room resolvers. *)
Definition dataSource (op : operation) : Dynamo.Table :=
  match op with
  | listMessageForRoom | createMessage => messageTable
  | listRooms | createRoom => roomTable
  end.

(** The key of the index of a table that has the given name. *)
Definition index_named (t : Dynamo.Table) (n : string) : option Dynamo.KeySchema :=
  (λ found, snd (snd found))
    <$> list_find (λ ix, fst ix = n) (Dynamo.globalSecondaryIndexes t).

(** ** The input map of the two mutations *)

Lemma get_insert_eq (m : gmap string value) k v : get (<[k := v]> m) k = v.
Proof. unfold get. by rewrite lookup_insert_eq. Qed.

Lemma get_insert_ne (m : gmap string value) k k' v :
  k ≠ k' → get (<[k := v]> m) k' = get m k'.
Proof. intros Hne. unfold get. by rewrite lookup_insert_ne. Qed.

Lemma member_toMapValuesJson (m : gmap string value) k :
  member k (toMapValuesJson m) = toDynamoDBJson <$> m !! k.
Proof. unfold toMapValuesJson. simpl. apply lookup_fmap. Qed.

Lemma createMessage_attributeValues u who m :
  member "attributeValues" (document (createMessage_request u who m))
  = Some (toMapValuesJson
            (CreateMessage.input (arguments_after (createMessage_request u who m)))).
Proof. reflexivity. Qed.

Lemma createMessage_key u who m :
  member "key" (document (createMessage_request u who m))
  = Some (JObj {[ "id" := toDynamoDBJson
       (get (CreateMessage.input (arguments_after (createMessage_request u who m))) "id") ]}).
Proof. reflexivity. Qed.

Lemma createMessage_input_after u who m :
  CreateMessage.input (arguments_after (createMessage_request u who m))
  = <["owner" := VStr (username who)]>
      (<["createdAt" := defaultIfNull (get m "createdAt") (VStr (nowISO8601 u))]>
         (<["id" := defaultIfNull (get m "id") (VStr (autoId u))]> m)).
Proof.
  unfold createMessage_request, CreateMessage.requestMappingTemplate. cbn.
  by rewrite get_insert_ne.
Qed.

(** A later [put] of a key hides an earlier one, whatever was put between
    them under other keys. *)
Lemma insert_shadow (m : gmap string value) k k1 k2 a b c v :
  <[k := a]> (<[k1 := b]> (<[k2 := c]> (<[k := v]> m)))
  = <[k := a]> (<[k1 := b]> (<[k2 := c]> m)).
Proof.
  apply map_eq. intros i. rewrite !lookup_insert.
  repeat case_decide; done.
Qed.

(** ** createMessage: the owner *)

(** In the document createMessage renders the record has [owner] set to the
    caller's [identity.username], the input map holds that owner too, and an
    [owner] the caller put into the input changes nothing of what the
    template renders. *)
Lemma createMessage_owner_is_caller
    (u : Util) (who : Identity) (m : gmap string value) (v : value) :
  (member "attributeValues" (document (createMessage_request u who m))
     ≫= member "owner") = Some (JObj {[ "S" := JStr (username who) ]})
  ∧ CreateMessage.input (arguments_after (createMessage_request u who m)) !! "owner"
    = Some (VStr (username who))
  ∧ createMessage_request u who (<["owner" := v]> m) = createMessage_request u who m.
Proof.
  split; [|split].
  - rewrite createMessage_attributeValues. cbn [mbind option_bind].
    rewrite member_toMapValuesJson, createMessage_input_after.
    by rewrite lookup_insert_eq.
  - rewrite createMessage_input_after. apply lookup_insert_eq.
  - unfold createMessage_request, CreateMessage.requestMappingTemplate. cbn.
    rewrite !(get_insert_ne _ "id" "createdAt") by done.
    rewrite !(get_insert_ne _ "owner") by done.
    rewrite !(get_insert_ne _ "createdAt" "id") by done.
    rewrite !get_insert_eq.
    by rewrite insert_shadow.
Qed.

(** C1. The owner is put into the record, and the record is not written.
    For every createMessage request, with whatever [owner] in the input, the
    document the template renders has the caller as [owner], but the text of
    the [createdAt] line stands in front of it: there is no store operation,
    so no record with this owner reaches the store. *)
Theorem createMessage_owner_is_not_stored
    (u : Util) (who : Identity) (m : gmap string value) (v : value) :
  (member "attributeValues"
     (document (createMessage_request u who (<["owner" := v]> m)))
     ≫= member "owner") = Some (JObj {[ "S" := JStr (username who) ]})
  ∧ stray (createMessage_request u who (<["owner" := v]> m)) ≠ []
  ∧ store_operation (createMessage_request u who (<["owner" := v]> m)) = None.
Proof.
  split; [|split; [discriminate | reflexivity]].
  rewrite createMessage_attributeValues. cbn [mbind option_bind].
  rewrite member_toMapValuesJson, createMessage_input_after.
  by rewrite lookup_insert_eq.
Qed.

(** ** createMessage: the createdAt line *)

(** The [put] of the [createdAt] line does run: an input without
    [createdAt] leaves the template with the time of the evaluation. *)
Lemma createMessage_createdAt_default u who (m : gmap string value) :
  get m "createdAt" = VNull →
  CreateMessage.input (arguments_after (createMessage_request u who m)) !! "createdAt"
  = Some (VStr (nowISO8601 u)).
Proof.
  intros Hnull. rewrite createMessage_input_after.
  rewrite lookup_insert_ne by done. rewrite lookup_insert_eq.
  by rewrite Hnull.
Qed.

(** C2. The [createdAt] line of the createMessage template is written
    [util.qr(...)] without its [$]: for every request the template renders
    the text [util.qr(], what the [put] returned and [)] in front of the
    document, so what it renders is not a JSON document and there is no
    store operation and no stored record. *)
Theorem createMessage_createdAt_line_is_rendered
    (u : Util) (who : Identity) (m : gmap string value) :
  stray (createMessage_request u who m)
  = [ Literal "util.qr(";
      (if isNull (get m "createdAt")
       then Literal CreateMessage.put_createdAt_text
       else Shown (get m "createdAt"));
      Literal ")" ]
  ∧ store_operation (createMessage_request u who m) = None.
Proof.
  split; [|reflexivity].
  unfold createMessage_request, CreateMessage.requestMappingTemplate. cbn.
  by rewrite !(get_insert_ne _ "id" "createdAt").
Qed.

(** The request of the specification's example: caller alice, input
    [{roomId: "r1", text: "hi"}]. *)
Example createMessage_alice_hi :
  store_operation
    (createMessage_request
       {| autoId := "b0c1"; nowISO8601 := "2021-06-01T12:00:00.000Z" |}
       {| username := "alice" |}
       {[ "roomId" := VStr "r1"; "text" := VStr "hi" ]}) = None.
Proof. reflexivity. Qed.

(** ** createRoom: the condition *)

(** C3. The createRoom template never sets [$condition], so for every
    request the PutItem it renders has [condition] null: the operation
    reaches the store with no not-exists precondition on [id]. *)
Theorem createRoom_condition_is_null
    (u : Util) (who : Identity) (m : gmap string value) :
  member "condition" (document (createRoom_request u who m)) = Some JNull
  ∧ store_operation (createRoom_request u who m)
    = Some (document (createRoom_request u who m)).
Proof. split; reflexivity. Qed.

(** ** createMessage: the conditional insert *)

(** C4. For every createMessage request the document is a PutItem keyed by
    the input's [id] (the caller's, or the generated one) with the
    precondition [attribute_not_exists(#id)], [#id] naming [id]; but the
    document is not a store operation, so the store never tests the
    precondition, and the response template returns the store's result as
    JSON whatever [$ctx.error] holds: it raises no failure. *)
Theorem createMessage_conditional_put
    (u : Util) (who : Identity) (m : gmap string value) (o : outcome) :
  member "operation" (document (createMessage_request u who m)) = Some (JStr "PutItem")
  ∧ member "key" (document (createMessage_request u who m))
    = Some (JObj {[ "id" := toDynamoDBJson
                              (defaultIfNull (get m "id") (VStr (autoId u))) ]})
  ∧ member "condition" (document (createMessage_request u who m))
    = Some attribute_not_exists_id
  ∧ store_operation (createMessage_request u who m) = None
  ∧ CreateMessage.responseMappingTemplate o = Returned (toJson (result o)).
Proof.
  split; [reflexivity|]. split; [|repeat split; reflexivity].
  rewrite createMessage_key, createMessage_input_after.
  rewrite !get_insert_ne by done. by rewrite get_insert_eq.
Qed.

(** ** The response templates *)

(** C5. When the store call of createRoom fails, its response template
    answers with the JSON of the result, null, and not with the failure; the
    rule of the specification gives the failure's message and type, and so do
    the templates of listRooms and listMessageForRoom.  createMessage has the
    response template of createRoom. *)
Theorem mutation_responses_drop_the_error (e : store_error) :
  responseMappingTemplate_of createRoom {| error := Some e; result := VNull |}
  = Returned JNull
  ∧ responseMappingTemplate_of createRoom {| error := Some e; result := VNull |}
    ≠ error_passthrough {| error := Some e; result := VNull |}
  ∧ error_passthrough {| error := Some e; result := VNull |}
    = Raised (message e) (type e)
  ∧ responseMappingTemplate_of listRooms {| error := Some e; result := VNull |}
    = Raised (message e) (type e)
  ∧ responseMappingTemplate_of listMessageForRoom
      {| error := Some e; result := VNull |}
    = Raised (message e) (type e)
  ∧ responseMappingTemplate_of createMessage = responseMappingTemplate_of createRoom.
Proof. repeat split; try reflexivity. discriminate. Qed.

(** The failure of the example, at createRoom. *)
Example createRoom_internal_failure :
  responseMappingTemplate_of createRoom
    {| error := Some internal_failure; result := VNull |} = Returned JNull.
Proof. reflexivity. Qed.

(** ** listMessageForRoom: the direction *)

(** With no cursor, or with a cursor that has no quote, no backslash and no
    control character, the document is the store operation and its
    [scanIndexForward] is false exactly when [sortDirection] is [DESC]. *)
Lemma listMessageForRoom_scanIndexForward_plain
    (u : Util) (who : Identity) (r : string) (sd tok : option string) :
  from_option plain true tok = true →
  store_operation (listMessageForRoom_request u who r sd tok)
  = Some (document (listMessageForRoom_request u who r sd tok))
  ∧ member "scanIndexForward" (document (listMessageForRoom_request u who r sd tok))
    = Some (JBool (negb (bool_decide (sd = Some "DESC")))).
Proof.
  intros _. split; [reflexivity|].
  destruct sd as [s|]; [|by destruct tok].
  unfold listMessageForRoom_request, ListMessageForRoom.requestMappingTemplate.
  cbn. repeat case_bool_decide; simplify_eq; by destruct tok.
Qed.

(** C6. The query as the template renders it for [sortDirection] [DESC] and
    no cursor: [scanIndexForward] is false, but the query has no [index]
    member, so it is a query of the table and not of the index ordered by
    [createdAt], and it binds [:roomId] under [expressionValue], not under
    [expressionValues].  With the forged cursor, the literal of [nextToken]
    ends at the cursor's first quote: the store finds no string there, what
    follows is read as members of the request. *)
Theorem listMessageForRoom_query_as_rendered
    (u : Util) (who : Identity) (r : string) :
  store_operation (listMessageForRoom_request u who r (Some "DESC") None)
  = Some (JObj
      {[ "version" := JStr "2017-02-28";
         "operation" := JStr "Query";
         "query" := JObj
           {[ "expression" := JStr "roomId = :roomId";
              "expressionValue" := JObj {[ ":roomId" := JObj {[ "S" := JStr r ]} ]} ]};
         "scanIndexForward" := JBool false ]})
  ∧ member "index"
      (document (listMessageForRoom_request u who r (Some "DESC") None)) = None
  ∧ (member "query"
       (document (listMessageForRoom_request u who r (Some "DESC") None))
       ≫= member "expressionValues") = None
  ∧ member "nextToken"
      (document (listMessageForRoom_request u who r (Some "DESC") (Some forged_cursor)))
    = Some (JRaw forged_cursor)
  ∧ string_literal forged_cursor = None.
Proof. repeat split; reflexivity. Qed.

(** ** listRooms: the scan *)

(** C7. The store operation of listRooms is the document the template
    renders, a Scan with the members [version], [limit] and [operation] and,
    exactly when the caller gave a cursor, [nextToken] with the caller's
    cursor: no filter; the limit is the caller's, 1000 without one. *)
Theorem listRooms_scan
    (u : Util) (who : Identity) (l : option Z) (tok : option string) :
  store_operation (listRooms_request u who l tok)
  = Some (JObj
      (from_option (λ t, <["nextToken" := JStr t]>) id tok
         {[ "version" := JStr "2018-05-29";
            "limit" := JNum (default 1000 l);
            "operation" := JStr "Scan" ]}))
  ∧ member "operation" (document (listRooms_request u who l tok)) = Some (JStr "Scan")
  ∧ member "filter" (document (listRooms_request u who l tok)) = None
  ∧ member "limit" (document (listRooms_request u who l tok))
    = Some (JNum (default 1000 l))
  ∧ member "nextToken" (document (listRooms_request u who l tok)) = JStr <$> tok.
Proof. destruct l, tok; repeat split; reflexivity. Qed.

(** ** The cursor *)

Lemma string_literal_plain (s : string) :
  plain s = true → string_literal s = Some s.
Proof.
  induction s as [|c s IH]; [done|]. cbn [plain string_literal].
  rewrite !andb_true_iff, !bool_decide_eq_true, negb_true_iff.
  intros [[[Hq Hb] Hc] Hs].
  rewrite !decide_False by done. rewrite Hc, (IH Hs). done.
Qed.

(** listRooms hands every cursor to [$util.toJson]: the store reads the
    caller's string, whatever its characters. *)
Lemma listRooms_nextToken_forwarded u who l (tok : string) :
  member "nextToken" (document (listRooms_request u who l (Some tok)))
    ≫= string_value = Some tok.
Proof. by destruct l. Qed.

(** listMessageForRoom forwards a cursor with no quote, backslash or control
    character as it is. *)
Lemma listMessageForRoom_nextToken_plain u who r sd (tok : string) :
  plain tok = true →
  member "nextToken" (document (listMessageForRoom_request u who r sd (Some tok)))
    ≫= string_value = Some tok.
Proof.
  intros Hplain.
  assert (member "nextToken"
            (document (listMessageForRoom_request u who r sd (Some tok)))
          = Some (JRaw tok)) as ->.
  { unfold listMessageForRoom_request, ListMessageForRoom.requestMappingTemplate.
    cbn. by destruct (_ && _). }
  cbn. by apply string_literal_plain.
Qed.

(** Without a cursor neither read has a [nextToken]. *)
Lemma nextToken_absent u who r sd l :
  member "nextToken" (document (listMessageForRoom_request u who r sd None)) = None
  ∧ member "nextToken" (document (listRooms_request u who l None)) = None.
Proof.
  split; [|by destruct l].
  unfold listMessageForRoom_request, ListMessageForRoom.requestMappingTemplate.
  cbn. by destruct (_ && _).
Qed.

(** C8. listMessageForRoom writes the cursor between two quotes as it came,
    with no escaping.  For the cursor of four characters [a], backslash, [n],
    [b] the store reads three characters, [a], line feed, [b], not the
    caller's cursor; listRooms forwards the same cursor unchanged. *)
Theorem listMessageForRoom_nextToken_is_reread (u : Util) (who : Identity) :
  member "nextToken"
    (document (listMessageForRoom_request u who "r1" None (Some "a\nb")))
  = Some (JRaw "a\nb")
  ∧ (member "nextToken"
       (document (listMessageForRoom_request u who "r1" None (Some "a\nb")))
       ≫= string_value) = Some (String "a" (String "010" (String "b" EmptyString)))
  ∧ (member "nextToken"
       (document (listMessageForRoom_request u who "r1" None (Some "a\nb")))
       ≫= string_value) ≠ Some "a\nb"
  ∧ (member "nextToken" (document (listRooms_request u who None (Some "a\nb")))
       ≫= string_value) = Some "a\nb".
Proof.
  split; [reflexivity|]. split; [reflexivity|].
  split; [discriminate | reflexivity].
Qed.

(** A cursor with a quote in it ends the literal early: the store finds no
    string there at all. *)
Example listMessageForRoom_nextToken_quote (u : Util) (who : Identity) :
  member "nextToken"
    (document (listMessageForRoom_request u who "r1" None
                 (Some ("a" +:+ String dquote "b"))))
    ≫= string_value = None.
Proof. reflexivity. Qed.

(** ** The key and the record *)

Lemma createRoom_input_after u who m :
  CreateRoom.input (arguments_after (createRoom_request u who m))
  = <["id" := defaultIfNull (get m "id") (VStr (autoId u))]> m.
Proof. reflexivity. Qed.

Lemma createRoom_attributeValues u who m :
  member "attributeValues" (document (createRoom_request u who m))
  = Some (toMapValuesJson
            (CreateRoom.input (arguments_after (createRoom_request u who m)))).
Proof. reflexivity. Qed.

(** C9. In the PutItem of createMessage and in that of createRoom the [id]
    of the key is the [id] among the attribute values: both are the typed
    form of the input's [id] after the default was put. *)
Theorem put_key_is_record_id
    (u : Util) (who : Identity) (m : gmap string value) :
  (member "key" (document (createMessage_request u who m)) ≫= member "id")
  = Some (toDynamoDBJson (defaultIfNull (get m "id") (VStr (autoId u))))
  ∧ (member "attributeValues" (document (createMessage_request u who m))
       ≫= member "id")
    = (member "key" (document (createMessage_request u who m)) ≫= member "id")
  ∧ (member "key" (document (createRoom_request u who m)) ≫= member "id")
    = Some (toDynamoDBJson (defaultIfNull (get m "id") (VStr (autoId u))))
  ∧ (member "attributeValues" (document (createRoom_request u who m))
       ≫= member "id")
    = (member "key" (document (createRoom_request u who m)) ≫= member "id").
Proof.
  assert (member "key" (document (createMessage_request u who m)) ≫= member "id"
          = Some (toDynamoDBJson (defaultIfNull (get m "id") (VStr (autoId u)))))
    as Hkey.
  { rewrite createMessage_key, createMessage_input_after. cbn.
    rewrite !get_insert_ne by done. by rewrite get_insert_eq. }
  assert (member "key" (document (createRoom_request u who m)) ≫= member "id"
          = Some (toDynamoDBJson (defaultIfNull (get m "id") (VStr (autoId u)))))
    as Hkey'.
  { unfold createRoom_request, CreateRoom.requestMappingTemplate. cbn.
    by rewrite get_insert_eq. }
  split; [done|]. split; [|split; [done|]].
  - rewrite Hkey, createMessage_attributeValues. cbn [mbind option_bind].
    rewrite member_toMapValuesJson, createMessage_input_after.
    rewrite !lookup_insert_ne by done. by rewrite lookup_insert_eq.
  - rewrite Hkey', createRoom_attributeValues. cbn [mbind option_bind].
    rewrite member_toMapValuesJson, createRoom_input_after.
    by rewrite lookup_insert_eq.
Qed.

(** ** The reads are functions of their arguments *)

(** C10. Two evaluations of the listMessageForRoom template, or of the
    listRooms template, on the same arguments render the same: the
    generated identifier, the clock and the caller's identity do not enter
    them. *)
Theorem read_requests_deterministic
    (u1 u2 : Util) (who1 who2 : Identity)
    (a : ListMessageForRoom.args) (b : ListRooms.args) :
  ListMessageForRoom.requestMappingTemplate u1 {| arguments := a; identity := who1 |}
  = ListMessageForRoom.requestMappingTemplate u2 {| arguments := a; identity := who2 |}
  ∧ ListRooms.requestMappingTemplate u1 {| arguments := b; identity := who1 |}
    = ListRooms.requestMappingTemplate u2 {| arguments := b; identity := who2 |}.
Proof. split; reflexivity. Qed.

(** * Further properties of the templates *)

#[local] Set Warnings "-clear-no-such-hyp".

(** ** The fields of the two mutations *)

Lemma defaultIfNull_VStr_not_null v s : isNull (defaultIfNull v (VStr s)) = false.
Proof. by destruct v. Qed.

Lemma defaultIfNull_not_null v d : isNull v = false → defaultIfNull v d = v.
Proof. unfold defaultIfNull. by intros ->. Qed.

Lemma get_Some (m : gmap string value) k v : m !! k = Some v → get m k = v.
Proof. unfold get. by intros ->. Qed.

(** X1. createMessage stores every field of the input other than [id],
    [createdAt] and [owner] as the caller gave it, in typed form, and adds
    nothing under such a name. *)
Theorem createMessage_passes_fields
    (u : Util) (who : Identity) (m : gmap string value) (k : string) :
  k ≠ "id" → k ≠ "createdAt" → k ≠ "owner" →
  (member "attributeValues" (document (createMessage_request u who m)) ≫= member k)
  = toDynamoDBJson <$> m !! k.
Proof.
  intros Hid Hat Hown.
  rewrite createMessage_attributeValues. cbn [mbind option_bind].
  rewrite member_toMapValuesJson, createMessage_input_after.
  by rewrite !lookup_insert_ne.
Qed.

Lemma createMessage_passes_fields_witness :
  ("text" ≠ "id" ∧ "text" ≠ "createdAt" ∧ "text" ≠ "owner")
  ∧ (member "attributeValues"
       (document (createMessage_request util_0 alice
                    {[ "roomId" := VStr "r1"; "text" := VStr "hi" ]}))
       ≫= member "text")
    = toDynamoDBJson <$>
        ({[ "roomId" := VStr "r1"; "text" := VStr "hi" ]} : gmap string value) !! "text".
Proof.
  split; [done|].
  apply (createMessage_passes_fields util_0 alice
           {[ "roomId" := VStr "r1"; "text" := VStr "hi" ]} "text"); done.
Defined.

(** X2. createRoom stores every field of the input other than [id] as the caller
    gave it: an [owner] or a [createdAt] in the record is the caller's, and
    there is none when the caller gave none. *)
Theorem createRoom_passes_fields
    (u : Util) (who : Identity) (m : gmap string value) (k : string) :
  k ≠ "id" →
  (member "attributeValues" (document (createRoom_request u who m)) ≫= member k)
  = toDynamoDBJson <$> m !! k.
Proof.
  intros Hid.
  rewrite createRoom_attributeValues. cbn [mbind option_bind].
  rewrite member_toMapValuesJson, createRoom_input_after.
  by rewrite lookup_insert_ne.
Qed.

Lemma createRoom_passes_fields_witness :
  "owner" ≠ "id"
  ∧ (member "attributeValues"
       (document (createRoom_request util_0 alice
                    {[ "name" := VStr "general"; "owner" := VStr "bob" ]}))
       ≫= member "owner")
    = toDynamoDBJson <$>
        ({[ "name" := VStr "general"; "owner" := VStr "bob" ]} : gmap string value)
          !! "owner".
Proof.
  split; [done|].
  apply (createRoom_passes_fields util_0 alice
           {[ "name" := VStr "general"; "owner" := VStr "bob" ]} "owner"); done.
Defined.

(** X3. The record of createMessage has the names of the input and [id],
    [createdAt] and [owner]; the record of createRoom has the names of the
    input and [id]. *)
Theorem record_names (u : Util) (who : Identity) (m : gmap string value) :
  (members <$> member "attributeValues" (document (createMessage_request u who m)))
  = Some ({[ "id"; "createdAt"; "owner" ]} ∪ dom m)
  ∧ (members <$> member "attributeValues" (document (createRoom_request u who m)))
    = Some ({[ "id" ]} ∪ dom m).
Proof.
  split.
  - rewrite createMessage_attributeValues, createMessage_input_after.
    cbn. f_equal. rewrite dom_fmap_L, !dom_insert_L. set_solver.
  - rewrite createRoom_attributeValues, createRoom_input_after.
    cbn. f_equal. by rewrite dom_fmap_L, dom_insert_L.
Qed.

(** ** What the caller decides and what the template decides *)

(** X4. An [id] and a [createdAt] of the input that are not null are kept in
    the document createMessage renders, whatever they are: the template
    replaces neither, and it does not look at the form of [createdAt].  The
    [createdAt] of the caller is also what the [createdAt] line renders
    between [util.qr(] and [)] in front of the document, so the document is
    no store operation. *)
Theorem createMessage_keeps_supplied
    (u : Util) (who : Identity) (m : gmap string value) (i c : value) :
  m !! "id" = Some i → isNull i = false →
  m !! "createdAt" = Some c → isNull c = false →
  (member "key" (document (createMessage_request u who m)) ≫= member "id")
  = Some (toDynamoDBJson i)
  ∧ (member "attributeValues" (document (createMessage_request u who m))
       ≫= member "id") = Some (toDynamoDBJson i)
  ∧ (member "attributeValues" (document (createMessage_request u who m))
       ≫= member "createdAt") = Some (toDynamoDBJson c)
  ∧ stray (createMessage_request u who m)
    = [ Literal "util.qr("; Shown c; Literal ")" ]
  ∧ store_operation (createMessage_request u who m) = None.
Proof.
  intros Hi Hin Hc Hcn.
  split; [|split; [|split; [|split; [|reflexivity]]]].
  - rewrite createMessage_key. cbn [mbind option_bind member].
    rewrite lookup_singleton_eq, createMessage_input_after.
    rewrite !get_insert_ne by done. rewrite get_insert_eq.
    by rewrite (get_Some _ _ _ Hi), defaultIfNull_not_null.
  - rewrite createMessage_attributeValues. cbn [mbind option_bind].
    rewrite member_toMapValuesJson, createMessage_input_after.
    rewrite !(lookup_insert_ne _ _ "id") by done. rewrite lookup_insert_eq.
    by rewrite (get_Some _ _ _ Hi), defaultIfNull_not_null.
  - rewrite createMessage_attributeValues. cbn [mbind option_bind].
    rewrite member_toMapValuesJson, createMessage_input_after.
    rewrite (lookup_insert_ne _ "owner") by done. rewrite lookup_insert_eq.
    by rewrite (get_Some _ _ _ Hc), defaultIfNull_not_null.
  - unfold createMessage_request, CreateMessage.requestMappingTemplate. cbn.
    rewrite !(get_insert_ne _ "id" "createdAt") by done.
    by rewrite (get_Some _ _ _ Hc), Hcn.
Qed.

Lemma createMessage_keeps_supplied_witness :
  (({[ "id" := VStr "m-7"; "createdAt" := VStr "yesterday" ]} : gmap string value)
     !! "id" = Some (VStr "m-7")
   ∧ isNull (VStr "m-7") = false
   ∧ ({[ "id" := VStr "m-7"; "createdAt" := VStr "yesterday" ]} : gmap string value)
       !! "createdAt" = Some (VStr "yesterday")
   ∧ isNull (VStr "yesterday") = false)
  ∧ (member "attributeValues"
       (document (createMessage_request util_0 alice
                    {[ "id" := VStr "m-7"; "createdAt" := VStr "yesterday" ]}))
       ≫= member "createdAt") = Some (toDynamoDBJson (VStr "yesterday"))
  ∧ stray (createMessage_request util_0 alice
             {[ "id" := VStr "m-7"; "createdAt" := VStr "yesterday" ]})
    = [ Literal "util.qr("; Shown (VStr "yesterday"); Literal ")" ].
Proof.
  split; [repeat split; reflexivity|].
  split;
    apply (createMessage_keeps_supplied util_0 alice
             {[ "id" := VStr "m-7"; "createdAt" := VStr "yesterday" ]}
             (VStr "m-7") (VStr "yesterday")); reflexivity.
Defined.

(** X5. With no [id] in the input, or with the [id] null, the key of the PutItem
    is the generated identifier, as a string; so for createMessage and for
    createRoom. *)
Theorem null_id_is_generated
    (u : Util) (who : Identity) (m : gmap string value) :
  get m "id" = VNull →
  (member "key" (document (createMessage_request u who m)) ≫= member "id")
  = Some (JObj {[ "S" := JStr (autoId u) ]})
  ∧ (member "key" (document (createRoom_request u who m)) ≫= member "id")
    = Some (JObj {[ "S" := JStr (autoId u) ]}).
Proof.
  intros Hnull. split.
  - rewrite createMessage_key, createMessage_input_after. cbn [mbind option_bind member].
    rewrite lookup_singleton_eq.
    rewrite !get_insert_ne by done. by rewrite get_insert_eq, Hnull.
  - unfold createRoom_request, CreateRoom.requestMappingTemplate. cbn.
    by rewrite get_insert_eq, Hnull.
Qed.

Lemma null_id_is_generated_witness :
  get ({[ "id" := VNull; "name" := VStr "general" ]} : gmap string value) "id" = VNull
  ∧ (member "key"
       (document (createRoom_request util_0 alice
                    {[ "id" := VNull; "name" := VStr "general" ]}))
       ≫= member "id") = Some (JObj {[ "S" := JStr "b0c1" ]}).
Proof.
  split; [reflexivity|].
  apply (null_id_is_generated util_0 alice
           {[ "id" := VNull; "name" := VStr "general" ]}).
  reflexivity.
Defined.

(** X6. The [id] a mutation leaves in the input is never null, so the key of its
    PutItem is never the typed null. *)
Theorem put_key_is_never_null (u : Util) (who : Identity) (m : gmap string value) :
  isNull (get (CreateMessage.input (arguments_after (createMessage_request u who m)))
            "id") = false
  ∧ isNull (get (CreateRoom.input (arguments_after (createRoom_request u who m)))
              "id") = false
  ∧ (member "key" (document (createMessage_request u who m)) ≫= member "id")
    ≠ Some (toDynamoDBJson VNull)
  ∧ (member "key" (document (createRoom_request u who m)) ≫= member "id")
    ≠ Some (toDynamoDBJson VNull).
Proof.
  assert (∀ v s, toDynamoDBJson (defaultIfNull v (VStr s)) ≠ toDynamoDBJson VNull)
    as Hne.
  { intros v s Heq.
    assert (member "NULL" (toDynamoDBJson (defaultIfNull v (VStr s))) = Some JNull)
      as Hnull by (by rewrite Heq).
    by destruct v. }
  split; [|split; [|split]].
  - rewrite createMessage_input_after. rewrite !get_insert_ne by done.
    rewrite get_insert_eq. apply defaultIfNull_VStr_not_null.
  - rewrite createRoom_input_after, get_insert_eq. apply defaultIfNull_VStr_not_null.
  - rewrite createMessage_key, createMessage_input_after. cbn [mbind option_bind member].
    rewrite lookup_singleton_eq.
    rewrite !get_insert_ne by done. rewrite get_insert_eq.
    intros [=Heq]. by apply Hne in Heq.
  - unfold createRoom_request, CreateRoom.requestMappingTemplate. cbn.
    rewrite get_insert_eq. intros [=Heq]. by apply Hne in Heq.
Qed.

(** ** Evaluating a mutation again *)

(** X7. The [id] and the [createdAt] are generated once.  Evaluated on the input
    it left, with any other generated identifier and at any other time, the
    createMessage template of the same caller leaves the input as it is and
    renders the same document; so does the createRoom template. *)
Theorem mutation_evaluated_again
    (u u' : Util) (who : Identity) (m : gmap string value) :
  document
    (createMessage_request u' who
       (CreateMessage.input (arguments_after (createMessage_request u who m))))
  = document (createMessage_request u who m)
  ∧ arguments_after
      (createMessage_request u' who
         (CreateMessage.input (arguments_after (createMessage_request u who m))))
    = arguments_after (createMessage_request u who m)
  ∧ createRoom_request u' who
      (CreateRoom.input (arguments_after (createRoom_request u who m)))
    = createRoom_request u who m.
Proof.
  assert (CreateMessage.input
            (arguments_after
               (createMessage_request u' who
                  (CreateMessage.input (arguments_after (createMessage_request u who m)))))
          = CreateMessage.input (arguments_after (createMessage_request u who m)))
    as Hinput.
  { rewrite (createMessage_input_after u'), (createMessage_input_after u).
    set (i := defaultIfNull (get m "id") (VStr (autoId u))).
    set (c := defaultIfNull (get m "createdAt") (VStr (nowISO8601 u))).
    rewrite !(get_insert_ne _ "owner") by done.
    rewrite get_insert_eq, (get_insert_ne _ "createdAt" "id"), get_insert_eq by done.
    rewrite !defaultIfNull_not_null
      by (subst i c; apply defaultIfNull_VStr_not_null).
    apply map_eq. intros k. rewrite !lookup_insert.
    repeat case_decide; done. }
  split; [|split].
  - unfold createMessage_request in *.
    unfold CreateMessage.requestMappingTemplate in *. cbn in *.
    by rewrite Hinput.
  - destruct (arguments_after (createMessage_request u' who _)) as [a] eqn:Ha.
    destruct (arguments_after (createMessage_request u who m)) as [b] eqn:Hb.
    cbn in Hinput. by rewrite Hinput.
  - unfold createRoom_request, CreateRoom.requestMappingTemplate. cbn.
    rewrite !get_insert_eq.
    rewrite !defaultIfNull_not_null by apply defaultIfNull_VStr_not_null.
    by rewrite insert_insert_eq.
Qed.

(** X8. createMessage is createRoom with two more puts: on the same input and
    with the same generated identifier both render the same key, and the
    record of createMessage is the record of createRoom with [createdAt] and
    [owner] put into it. *)
Theorem createMessage_extends_createRoom
    (u : Util) (who who' : Identity) (m : gmap string value) :
  member "key" (document (createMessage_request u who m))
  = member "key" (document (createRoom_request u who' m))
  ∧ member "attributeValues" (document (createRoom_request u who' m))
    = Some (JObj (toDynamoDBJson <$>
                    CreateRoom.input (arguments_after (createRoom_request u who' m))))
  ∧ member "attributeValues" (document (createMessage_request u who m))
    = Some (JObj
        (<["owner" := toDynamoDBJson (VStr (username who))]>
           (<["createdAt" :=
                toDynamoDBJson
                  (defaultIfNull (get m "createdAt") (VStr (nowISO8601 u)))]>
              (toDynamoDBJson <$>
                 CreateRoom.input (arguments_after (createRoom_request u who' m)))))).
Proof.
  split; [|split; [reflexivity|]].
  - rewrite createMessage_key, createMessage_input_after.
    unfold createRoom_request, CreateRoom.requestMappingTemplate. cbn.
    rewrite !get_insert_ne by done. by rewrite !get_insert_eq.
  - rewrite createMessage_attributeValues.
    rewrite createMessage_input_after, createRoom_input_after.
    unfold toMapValuesJson. by rewrite !fmap_insert.
Qed.

(** ** The query of listMessageForRoom *)

Lemma listMessageForRoom_document u who r sd tok :
  document (listMessageForRoom_request u who r sd tok)
  = JObj
      (from_option (λ t, <["nextToken" := JRaw t]>) id tok
         (<["scanIndexForward" := JBool (negb (bool_decide (sd = Some "DESC")))]>
            {[ "version" := JStr "2017-02-28";
               "operation" := JStr "Query";
               "query" := JObj
                 {[ "expression" := JStr "roomId = :roomId";
                    "expressionValue" := JObj
                      {[ ":roomId" := JObj {[ "S" := JStr r ]} ]} ]} ]})).
Proof.
  unfold listMessageForRoom_request, ListMessageForRoom.requestMappingTemplate.
  cbn. destruct sd as [s|]; cbn; [|by destruct tok].
  repeat case_bool_decide; simplify_eq; by destruct tok.
Qed.

(** X9. With no cursor, or with a cursor that has no quote, no backslash and
    no control character, the store operation of listMessageForRoom is the
    document the template renders; it has the members [version],
    [operation], [query] and [scanIndexForward], and [nextToken] with a
    cursor, and no other: no index, no limit and no filter; and the store
    reads the cursor as the caller gave it. *)
Theorem listMessageForRoom_members
    (u : Util) (who : Identity) (r : string) (sd tok : option string) :
  from_option plain true tok = true →
  store_operation (listMessageForRoom_request u who r sd tok)
  = Some (document (listMessageForRoom_request u who r sd tok))
  ∧ members (document (listMessageForRoom_request u who r sd tok))
    = {[ "version"; "operation"; "query"; "scanIndexForward" ]}
        ∪ from_option (λ _, {[ "nextToken" ]}) ∅ tok
  ∧ (member "nextToken" (document (listMessageForRoom_request u who r sd tok))
       ≫= string_value) = tok
  ∧ member "index" (document (listMessageForRoom_request u who r sd tok)) = None
  ∧ member "limit" (document (listMessageForRoom_request u who r sd tok)) = None
  ∧ member "filter" (document (listMessageForRoom_request u who r sd tok)) = None.
Proof.
  intros Hplain. split; [reflexivity|].
  rewrite listMessageForRoom_document.
  split; [|split; [|by destruct tok]].
  - destruct tok; cbn; rewrite !dom_insert_L, dom_singleton_L; set_solver.
  - destruct tok as [t|]; [|reflexivity]. cbn.
    rewrite lookup_insert_eq. cbn. by apply string_literal_plain.
Qed.

Lemma listMessageForRoom_members_witness :
  from_option plain true (Some "eyJ2IjoxfQ==") = true
  ∧ members
      (document (listMessageForRoom_request util_0 alice "r1" (Some "DESC")
                   (Some "eyJ2IjoxfQ==")))
    = {[ "version"; "operation"; "query"; "scanIndexForward" ]}
        ∪ from_option (λ _, {[ "nextToken" ]}) ∅ (Some "eyJ2IjoxfQ==")
  ∧ (member "nextToken"
       (document (listMessageForRoom_request util_0 alice "r1" (Some "DESC")
                    (Some "eyJ2IjoxfQ==")))
       ≫= string_value) = Some "eyJ2IjoxfQ==".
Proof.
  split; [reflexivity|].
  split;
    apply (listMessageForRoom_members util_0 alice "r1" (Some "DESC")
             (Some "eyJ2IjoxfQ==")); reflexivity.
Defined.

(** ** Which cursors listMessageForRoom forwards *)

Lemma utf8_app_length (n : N) (t : string) :
  (String.length (utf8 n +:+ t) ≤ 4 + String.length t)%nat.
Proof.
  unfold utf8. repeat case_match; unfold String.append; cbn [String.length]; lia.
Qed.

(** Reading a literal never gives more characters than its body has, and
    gives fewer when the body starts with a backslash. *)
Lemma string_literal_length (n : nat) :
  ∀ s t, (String.length s ≤ n)%nat → string_literal s = Some t →
    (String.length t ≤ String.length s)%nat
    ∧ (∀ rest, s = String backslash rest → (String.length t < String.length s)%nat).
Proof.
  induction n as [|n IH]; intros s t Hlen Hs.
  { destruct s; [|cbn in Hlen; lia]. cbn in Hs. simplify_eq. split; [done|]. intros; discriminate. }
  destruct s as [|c rest].
  { cbn in Hs. simplify_eq. split; [done|]. intros; discriminate. }
  cbn [String.length] in Hlen.
  cbn [string_literal] in Hs.
  destruct (decide (c = dquote)); [done|].
  destruct (decide (c = backslash)) as [->|Hnb].
  - destruct rest as [|e rest1]; [done|].
    destruct (decide (e = "u"%char)).
    + destruct rest1 as [|h1 [|h2 [|h3 [|h4 rest2]]]]; try done.
      destruct (hex4 h1 h2 h3 h4) as [k|]; [|done]. cbn [mbind option_bind] in Hs.
      destruct (_ && _).
      * destruct rest2 as [|b [|u0 [|l1 [|l2 [|l3 [|l4 rest3]]]]]]; try done.
        destruct (decide _); [|done].
        destruct (hex4 l1 l2 l3 l4) as [lo|]; [|done]. cbn [mbind option_bind] in Hs.
        destruct (_ && _); [|done].
        apply fmap_Some in Hs as (t' & Ht' & ->).
        apply IH in Ht' as [Hle _]; [|cbn [String.length] in Hlen |- *; lia].
        pose proof (utf8_app_length
                      (65536 + (k - 55296) * 1024 + (lo - 56320))%N t') as Hu.
        cbn [String.length]. split; [|intros ? _]; lia.
      * destruct (_ && _); [done|].
        apply fmap_Some in Hs as (t' & Ht' & ->).
        apply IH in Ht' as [Hle _]; [|cbn [String.length] in Hlen |- *; lia].
        pose proof (utf8_app_length k t') as Hu.
        cbn [String.length]. split; [|intros ? _]; lia.
    + destruct (escape e) as [d|]; [|done]. cbn [mbind option_bind] in Hs.
      apply fmap_Some in Hs as (t' & Ht' & ->).
      apply IH in Ht' as [Hle _]; [|cbn [String.length] in Hlen |- *; lia].
      cbn [String.length]. split; [|intros ? _]; lia.
  - destruct (N_of_ascii c <? 32)%N; [done|].
    apply fmap_Some in Hs as (t' & Ht' & ->).
    apply IH in Ht' as [Hle _]; [|lia].
    cbn [String.length]. split; [lia|]. intros rest' [= Hc _]. done.
Qed.

Lemma string_literal_same_plain (s : string) :
  string_literal s = Some s → plain s = true.
Proof.
  induction s as [|c s IH]; [done|]. intros Hs.
  destruct (decide (c = backslash)) as [->|Hnb].
  { apply (string_literal_length _ _ _ (le_n _)) in Hs as [_ Hlt].
    specialize (Hlt s eq_refl). lia. }
  cbn [string_literal plain] in *.
  destruct (decide (c = dquote)); [done|].
  rewrite decide_False in Hs by done.
  destruct (N_of_ascii c <? 32)%N; [done|].
  apply fmap_Some in Hs as (t' & Ht' & [= ->]).
  rewrite (IH Ht'). by rewrite !bool_decide_eq_true_2.
Qed.

(** X10. A cursor reaches the store of listMessageForRoom as the caller gave it
    exactly when it has no quote, no backslash and no control character. *)
Theorem listMessageForRoom_nextToken_intact_iff
    (u : Util) (who : Identity) (r : string) (sd : option string) (tok : string) :
  (member "nextToken" (document (listMessageForRoom_request u who r sd (Some tok)))
     ≫= string_value) = Some tok
  ↔ plain tok = true.
Proof.
  rewrite listMessageForRoom_document. cbn.
  rewrite lookup_insert_eq. cbn.
  split; [apply string_literal_same_plain | apply string_literal_plain].
Qed.

(** ** The requests and the tables they go to *)

(** X12. The key of the PutItem of a mutation names exactly the key attributes of
    the table behind its data source, and a string [id], the caller's or the
    generated one, is written with the tag of the type the table declares
    for its partition key. *)
Theorem put_key_fits_table
    (u : Util) (who : Identity) (m : gmap string value) (s : string) :
  (members <$> member "key" (document (createMessage_request u who m)))
  = Some (Dynamo.key_names (Dynamo.schema (dataSource createMessage)))
  ∧ (members <$> member "key" (document (createRoom_request u who m)))
    = Some (Dynamo.key_names (Dynamo.schema (dataSource createRoom)))
  ∧ (member "key" (document (createMessage_request u who (<["id" := VStr s]> m)))
       ≫= member (Dynamo.name (Dynamo.partitionKey (Dynamo.schema messageTable))))
    = Some (JObj {[ Dynamo.tag (Dynamo.type
                      (Dynamo.partitionKey (Dynamo.schema messageTable)))
                    := JStr s ]})
  ∧ (member "key" (document (createRoom_request u who (delete "id" m)))
       ≫= member (Dynamo.name (Dynamo.partitionKey (Dynamo.schema roomTable))))
    = Some (JObj {[ Dynamo.tag (Dynamo.type
                      (Dynamo.partitionKey (Dynamo.schema roomTable)))
                    := JStr (autoId u) ]}).
Proof.
  split; [|split; [|split]].
  - rewrite createMessage_key. reflexivity.
  - reflexivity.
  - rewrite createMessage_key, createMessage_input_after. cbn.
    rewrite !get_insert_ne by done. by rewrite !get_insert_eq.
  - unfold createRoom_request, CreateRoom.requestMappingTemplate. cbn.
    rewrite get_insert_eq.
    unfold get. by rewrite lookup_delete_eq.
Qed.

(** X13. With no cursor, or with a cursor that has no quote, no backslash
    and no control character, the store operation of listMessageForRoom is
    the document the template renders; its query constrains [roomId], the
    partition key of the index [message-by-room-id]; [roomId] is no key
    attribute of the table itself, and the request names no index. *)
Theorem query_key_is_the_index_key
    (u : Util) (who : Identity) (r : string) (sd tok : option string) :
  from_option plain true tok = true →
  store_operation (listMessageForRoom_request u who r sd tok)
  = Some (document (listMessageForRoom_request u who r sd tok))
  ∧ fmap Dynamo.partitionKey
      (index_named (dataSource listMessageForRoom) "message-by-room-id")
    = Some {| Dynamo.name := "roomId"; Dynamo.type := Dynamo.STRING |}
  ∧ (member "query" (document (listMessageForRoom_request u who r sd tok))
       ≫= member "expression") = Some (JStr "roomId = :roomId")
  ∧ ("roomId" ∉ Dynamo.key_names (Dynamo.schema (dataSource listMessageForRoom)))
  ∧ member "index" (document (listMessageForRoom_request u who r sd tok)) = None.
Proof.
  intros _. split; [reflexivity|].
  rewrite listMessageForRoom_document.
  split; [reflexivity|]. split; [by destruct tok|]. split; [|by destruct tok].
  cbn. set_solver.
Qed.

Lemma query_key_is_the_index_key_witness :
  from_option plain true None = true
  ∧ member "index"
      (document (listMessageForRoom_request util_0 alice "r1" None None)) = None.
Proof.
  split; [reflexivity|].
  apply (query_key_is_the_index_key util_0 alice "r1" None None). reflexivity.
Defined.

(** ** What enters a mutation *)

(** X14. createRoom uses the generated identifier and nothing else of its
    surroundings: neither the caller nor the time enters the request. *)
Theorem createRoom_ignores_caller_and_time
    (u u' : Util) (who who' : Identity) (m : gmap string value) :
  autoId u = autoId u' →
  createRoom_request u who m = createRoom_request u' who' m.
Proof.
  intros Hid. unfold createRoom_request, CreateRoom.requestMappingTemplate.
  cbn. by rewrite Hid.
Qed.

Lemma createRoom_ignores_caller_and_time_witness :
  autoId util_0 = autoId {| autoId := "b0c1"; nowISO8601 := "1999-12-31T23:59:59Z" |}
  ∧ createRoom_request util_0 alice {[ "name" := VStr "general" ]}
    = createRoom_request {| autoId := "b0c1"; nowISO8601 := "1999-12-31T23:59:59Z" |}
        {| username := "bob" |} {[ "name" := VStr "general" ]}.
Proof.
  split; [reflexivity|].
  apply (createRoom_ignores_caller_and_time util_0
           {| autoId := "b0c1"; nowISO8601 := "1999-12-31T23:59:59Z" |}
           alice {| username := "bob" |} {[ "name" := VStr "general" ]}).
  reflexivity.
Defined.

(** X15. With an [id] and a [createdAt] in the input, neither null, nothing
    generated enters createMessage: the same caller gets the same document
    whatever the generated identifier and the time. *)
Theorem createMessage_with_id_and_time_is_repeatable
    (u u' : Util) (who : Identity) (m : gmap string value) :
  isNull (get m "id") = false → isNull (get m "createdAt") = false →
  document (createMessage_request u who m) = document (createMessage_request u' who m).
Proof.
  intros Hid Hat.
  unfold createMessage_request, CreateMessage.requestMappingTemplate. cbn.
  rewrite !(get_insert_ne _ "id" "createdAt") by done.
  by rewrite !defaultIfNull_not_null.
Qed.

Lemma createMessage_with_id_and_time_is_repeatable_witness :
  (isNull (get ({[ "id" := VStr "m-7"; "createdAt" := VStr "yesterday" ]}
                  : gmap string value) "id") = false
   ∧ isNull (get ({[ "id" := VStr "m-7"; "createdAt" := VStr "yesterday" ]}
                    : gmap string value) "createdAt") = false)
  ∧ document (createMessage_request util_0 alice
                {[ "id" := VStr "m-7"; "createdAt" := VStr "yesterday" ]})
    = document (createMessage_request
                  {| autoId := "ffff"; nowISO8601 := "1999-12-31T23:59:59Z" |} alice
                  {[ "id" := VStr "m-7"; "createdAt" := VStr "yesterday" ]}).
Proof.
  split; [split; reflexivity|].
  apply (createMessage_with_id_and_time_is_repeatable util_0
           {| autoId := "ffff"; nowISO8601 := "1999-12-31T23:59:59Z" |} alice
           {[ "id" := VStr "m-7"; "createdAt" := VStr "yesterday" ]}); reflexivity.
Defined.
